(** * django-reviews: the admin glue of [reviews/admin.py]

    A shallow embedding of the link renderers, the reviewable-type
    enumerator, the [ReviewedModelListFilter] and the [ReviewAdmin]
    registration, together with the properties the specification states
    about them, and of the [Product] model of [tests/models.py].

    Conventions.
    - Python [None] is [None : option _]; a raised exception is [Raise e] in
      the [result] monad below.
    - A queryset is the list of its rows, in the order the database yields
      them.
    - The pieces of the web framework the module calls ([reverse],
      [ContentType.objects.get_for_model], [QuerySet.filter],
      [SimpleListFilter.__init__]) are either parameters of a section or
      transcribed next to their caller, each one marked as such. *)

From Stdlib Require Import ZArith Ascii String.
From stdpp Require Import base option list strings pretty gmap.


(** ** Exceptions *)

(** The two exceptions the renderers can run into: the URL resolver's
    [NoReverseMatch] and the [AttributeError] of reading an attribute of
    [None]. *)
Inductive exn : Type :=
  | NoReverseMatch (viewname : string)
  | AttributeError (attr : string).

Inductive result (A : Type) : Type :=
  | Ok (a : A)
  | Raise (e : exn).
Arguments Ok {A} a.
Arguments Raise {A} e.

#[global] Instance result_ret : MRet result := λ A a, Ok a.
#[global] Instance result_bind : MBind result := λ A B f m,
  match m with
  | Ok a => f a
  | Raise e => Raise e
  end.

Definition raises {A} (m : result A) : Prop := ∃ e, m = Raise e.
Definition returns {A} (m : result A) : Prop := ∃ a, m = Ok a.

(** ** Strings *)

(** [haystack] has [needle] as a contiguous part. *)
Definition contains (haystack needle : string) : Prop :=
  ∃ before after, haystack = before +:+ needle +:+ after.

Definition is_lower (c : ascii) : bool :=
  (97 <=? nat_of_ascii c)%nat && (nat_of_ascii c <=? 122)%nat.
Definition is_upper (c : ascii) : bool :=
  (65 <=? nat_of_ascii c)%nat && (nat_of_ascii c <=? 90)%nat.
Definition to_upper (c : ascii) : ascii :=
  if is_lower c then ascii_of_nat (nat_of_ascii c - 32) else c.
Definition to_lower (c : ascii) : ascii :=
  if is_upper c then ascii_of_nat (nat_of_ascii c + 32) else c.

(** Python's [str.title()] on ASCII text: a cased letter that follows an
    uncased character (or starts the string) is upper-cased, a cased letter
    that follows a cased one is lower-cased.  Bytes outside [A-Za-z] are
    uncased here. *)
Fixpoint title_from (previous_is_cased : bool) (s : string) : string :=
  match s with
  | EmptyString => EmptyString
  | String c rest =>
      if is_lower c then
        String (if previous_is_cased then c else to_upper c) (title_from true rest)
      else if is_upper c then
        String (if previous_is_cased then to_lower c else c) (title_from true rest)
      else String c (title_from false rest)
  end.

Definition title (s : string) : string := title_from false s.

(** ** Data model *)

(** A row of the framework's content-type table: the (type) half of a
    polymorphic reference. *)
Record ContentType : Type := {
  app_label : string;
  model : string;
  name : string
}.

#[global] Instance ContentType_eq_dec : EqDecision ContentType.
Proof. solve_decision. Defined.

(** A record type (a model class) as the type registry knows it.
    [reviewable] is [issubclass(klass, Reviewable)]. *)
Record ModelClass : Type := {
  meta_app_label : string;
  meta_model_name : string;
  meta_verbose_name : string;
  reviewable : bool
}.

#[global] Instance ModelClass_eq_dec : EqDecision ModelClass.
Proof. solve_decision. Defined.

(** What the framework's type registry returns when asked for its record
    types: a list, in the registry's order. *)
Abbreviation Registry := (list ModelClass).

(** A row of some reviewable table, as far as the admin needs it: its
    primary key ([.id]) and its string form ([__unicode__]). *)
Record ReviewedRecord : Type := {
  rec_id : Z;
  rec_text : string
}.

#[global] Instance ReviewedRecord_eq_dec : EqDecision ReviewedRecord.
Proof. solve_decision. Defined.

(** Modelled from the spec: the [Review] model, whose declaration
    ([reviews/models.py]) is not among the files embedded here.  "Review: a record referencing
    (reviewed-type, reviewed-record-id, reviewing-user, numeric score,
    free-text comment, boolean approved-flag, boolean anonymous-flag, created
    timestamp, updated flag)."  Field names are the ones [admin.py] uses. *)
Record Review : Type := {
  pk : Z;
  content_type : ContentType;
  object_id : Z;
  user : string;
  score : Z;
  comment : string;
  comment_approved : bool;
  anonymous : bool;
  created : Z;
  is_updated : bool
}.

#[global] Instance Review_eq_dec : EqDecision Review.
Proof. solve_decision. Defined.

(** The tables polymorphic references point into, keyed by
    (app label, model, primary key). *)
Abbreviation Store := (gmap (string * string * Z) ReviewedRecord).

(** Modelled from the spec: [Review.reviewed_object], the polymorphic
    reference "resolved at read time via a type+id pair".  A dangling
    reference reads as [None]. *)
Definition reviewed_object (db : Store) (obj : Review) : option ReviewedRecord :=
  db !! (app_label (content_type obj), model (content_type obj), object_id obj).

(** Modelled from the spec: [get_reviewable_model_classes], whose body
    ([reviews/utils.py]) is not among the files embedded here: "the list of
    distinct record types that currently implement the Reviewable capability
    ... sorted however the underlying type registry returns them". *)
Definition get_reviewable_model_classes (registry : Registry) : list ModelClass :=
  filter (λ klass, reviewable klass = true) registry.

(** The example model of the test suite, [tests/models.py]:
    [class Product(Reviewable)]. *)
Definition Product : ModelClass :=
  {| meta_app_label := "tests"; meta_model_name := "product";
     meta_verbose_name := "product"; reviewable := true |}.

(** The request as far as the admin filters read it: its query string. *)
Record HttpRequest : Type := {
  GET : gmap string string
}.

(** ** The admin options of a screen *)

(** The two computed columns. *)
Inductive Renderer : Type :=
  | ReviewedModelLinked
  | ReviewedObjectLinked.

(** An entry of [list_display], [readonly_fields] or [fields]: the name of a
    model field, or one of the callables above. *)
Inductive FieldRef : Type :=
  | Attr (field : string)
  | Callable (f : Renderer).

(** An entry of [list_filter]: a field name or the filter class below. *)
Inductive FilterRef : Type :=
  | FieldFilter (field : string)
  | ReviewedModelListFilterClass.

#[global] Instance Renderer_eq_dec : EqDecision Renderer.
Proof. solve_decision. Defined.
#[global] Instance FieldRef_eq_dec : EqDecision FieldRef.
Proof. solve_decision. Defined.
#[global] Instance FilterRef_eq_dec : EqDecision FilterRef.
Proof. solve_decision. Defined.

Record ModelAdmin : Type := {
  list_display : list FieldRef;
  list_filter : list FilterRef;
  readonly_fields : list FieldRef;
  fields : list FieldRef
}.

Definition allow_tags (f : Renderer) : bool := true.

Definition short_description (f : Renderer) : string :=
  match f with
  | ReviewedModelLinked => "Reviewed model"
  | ReviewedObjectLinked => "Reviewed object"
  end.

(** ** Link renderers *)

Section Renderers.

(** The framework's URL reversal: [reverse viewname args] is the URL of
    the named route, or [None] where the framework raises
    [NoReverseMatch]. *)
Variable reverse : string → list Z → option string.

Definition reverse_url (viewname : string) (args : list Z) : result string :=
  match reverse viewname args with
  | Some url => Ok url
  | None => Raise (NoReverseMatch viewname)
  end.

(** ['admin:{app_label}_{model_name}_changelist'.format(...)] *)
Definition changelist_viewname (obj : Review) : string :=
  "admin:" +:+ app_label (content_type obj) +:+ "_"
    +:+ model (content_type obj) +:+ "_changelist".

(** ['admin:{app_label}_{model_name}_change'.format(...)] *)
Definition change_viewname (obj : Review) : string :=
  "admin:" +:+ app_label (content_type obj) +:+ "_"
    +:+ model (content_type obj) +:+ "_change".

(** ["<a href='%s'>%s</a>" % (url, label)] *)
Definition anchor (url label : string) : string :=
  "<a href='" +:+ url +:+ "'>" +:+ label +:+ "</a>".

(** [obj.reviewed_object.id]: reading [.id] of [None] raises. *)
Definition getattr_id (o : option ReviewedRecord) : result Z :=
  match o with
  | Some r => Ok (rec_id r)
  | None => Raise (AttributeError "id")
  end.

(** [%s] applied to [obj.reviewed_object]. *)
Definition format_s (o : option ReviewedRecord) : string :=
  match o with
  | Some r => rec_text r
  | None => "None"
  end.

Definition reviewed_model_linked (obj : Review) : result string :=
  url ← reverse_url (changelist_viewname obj) [];
  Ok (anchor url (title (name (content_type obj)))).

(** The arguments of [reverse] are evaluated before the call, so
    [obj.reviewed_object.id] is read first. *)
Definition reviewed_object_linked (db : Store) (obj : Review) : result string :=
  let viewname := change_viewname obj in
  i ← getattr_id (reviewed_object db obj);
  url ← reverse_url viewname [i];
  Ok (anchor url (format_s (reviewed_object db obj))).

Definition render (db : Store) (f : Renderer) (obj : Review) : result string :=
  match f with
  | ReviewedModelLinked => reviewed_model_linked obj
  | ReviewedObjectLinked => reviewed_object_linked db obj
  end.

End Renderers.

(** ** Reviewable-type enumerator *)

Section Enumerator.

(** The framework's [ContentType.objects.get_for_model]. *)
Variable get_for_model : ModelClass → ContentType.

(** The (key, display label) pair of a record type. *)
Definition choice_of (klass : ModelClass) : string * string :=
  (name (get_for_model klass), title (name (get_for_model klass))).

(** The body of [get_reviewable_models] from line 50 on: the loop that
    appends one pair per class of [model_classes]. *)
Definition reviewable_models_of (model_classes : list ModelClass)
  : list (string * string) :=
  foldl
    (λ reviewable_models klass,
       reviewable_models ++
         [(name (get_for_model klass), title (name (get_for_model klass)))])
    [] model_classes.

Definition get_reviewable_models (registry : Registry) : list (string * string) :=
  reviewable_models_of (get_reviewable_model_classes registry).

(** ** Dynamic filter *)

Definition filter_title : string := "Reviewed model".
Definition parameter_name : string := "reviewed_model".

Definition lookups (registry : Registry) (request : HttpRequest)
    (model_admin : ModelAdmin) : option (list (string * string)) :=
  if (length (get_reviewable_models registry) <? 2)%nat then None
  else Some (get_reviewable_models registry).

(** The state of a filter instance, as the framework's
    [SimpleListFilter.__init__] leaves it. *)
Record ReviewedModelListFilter : Type := {
  used_parameters : gmap string string;
  lookup_choices : list (string * string)
}.

(** The framework's [SimpleListFilter.__init__]: the filter's own
    parameter is moved from the query string into [used_parameters], and
    [lookups] fills the choice list, [None] counting as no choices. *)
Definition new_filter (registry : Registry) (request : HttpRequest)
    (model_admin : ModelAdmin) : ReviewedModelListFilter :=
  {| used_parameters :=
       match GET request !! parameter_name with
       | Some v => {[ parameter_name := v ]}
       | None => ∅
       end;
     lookup_choices := default [] (lookups registry request model_admin) |}.

(** The framework's [SimpleListFilter.has_output]: a filter without
    choices is not shown. *)
Definition has_output (self : ReviewedModelListFilter) : bool :=
  (0 <? length (lookup_choices self))%nat.

(** The framework's [SimpleListFilter.value]. *)
Definition value (self : ReviewedModelListFilter) : option string :=
  used_parameters self !! parameter_name.

(** [queryset.filter(content_type__name=v)]: the rows whose content type
    has that name, in the queryset's order. *)
Definition filter_content_type__name (v : string) (qs : list Review) : list Review :=
  filter (λ r, name (content_type r) = v) qs.

(** Without a selected value the method falls off its end and returns
    [None]. *)
Definition queryset (self : ReviewedModelListFilter) (request : HttpRequest)
    (qs : list Review) : option (list Review) :=
  match value self with
  | Some v => Some (filter_content_type__name v qs)
  | None => None
  end.

(** The framework's use of a filter in the change list:
    [ChangeList.get_filters] keeps a filter only when [has_output] holds, and
    [ChangeList.get_queryset] asks every kept filter for its queryset, a
    [None] leaving the queryset as it is.  A filter without choices is
    therefore never asked. *)
Definition changelist_apply (self : ReviewedModelListFilter)
    (request : HttpRequest) (qs : list Review) : list Review :=
  if has_output self then
    match queryset self request qs with
    | Some new_qs => new_qs
    | None => qs
    end
  else qs.

End Enumerator.

(** ** Admin registration *)

Definition ReviewAdmin_readonly_fields : list FieldRef :=
  [ Callable ReviewedModelLinked;
    Callable ReviewedObjectLinked;
    Attr "user";
    Attr "score";
    Attr "created";
    Attr "is_updated" ].

Definition ReviewAdmin : ModelAdmin :=
  {| list_display :=
       [ Attr "id";
         Callable ReviewedModelLinked;
         Callable ReviewedObjectLinked;
         Attr "user";
         Attr "score";
         Attr "comment";
         Attr "comment_approved" ];
     list_filter :=
       [ ReviewedModelListFilterClass;
         FieldFilter "comment_approved";
         FieldFilter "score" ];
     readonly_fields := ReviewAdmin_readonly_fields;
     fields :=
       ReviewAdmin_readonly_fields ++
         [ Attr "comment";
           Attr "anonymous";
           Attr "comment_approved" ] |}.

(** [admin.site.register(Review, ReviewAdmin)]: the site's registry maps a
    model's name to its options. *)
Definition admin_site : gmap string ModelAdmin :=
  {[ "Review" := ReviewAdmin ]}.

(** ** A concrete installation, for examples *)

(** [get_for_model] on a content-type table that is in step with the
    classes: the row is made of the class's meta data. *)
Definition meta_content_type (klass : ModelClass) : ContentType :=
  {| app_label := meta_app_label klass;
     model := meta_model_name klass;
     name := meta_verbose_name klass |}.

Definition Seller : ModelClass :=
  {| meta_app_label := "shop"; meta_model_name := "seller";
     meta_verbose_name := "seller"; reviewable := true |}.

(** A record type that is not reviewable. *)
Definition Invoice : ModelClass :=
  {| meta_app_label := "shop"; meta_model_name := "invoice";
     meta_verbose_name := "invoice"; reviewable := false |}.

(** A review of product 1 and the store that holds (or has lost) the
    product. *)
Definition product_content_type : ContentType := meta_content_type Product.

Definition review1 : Review :=
  {| pk := 10; content_type := product_content_type; object_id := 1;
     user := "alice"; score := 4; comment := "fine";
     comment_approved := false; anonymous := false;
     created := 0; is_updated := false |}.

Definition review2 : Review :=
  {| pk := 11; content_type := meta_content_type Seller; object_id := 7;
     user := "bob"; score := 2; comment := "slow";
     comment_approved := true; anonymous := true;
     created := 5; is_updated := true |}.

Definition product1 : ReviewedRecord := {| rec_id := 1; rec_text := "Teapot" |}.

Definition db1 : Store := {[ ("tests", "product", 1%Z) := product1 ]}.

(** No model is registered with the admin site: nothing reverses. *)
Definition no_routes (viewname : string) (args : list Z) : option string := None.

(** The routes of an admin site that has [Product] registered. *)
Definition product_routes (viewname : string) (args : list Z) : option string :=
  if decide (viewname = "admin:tests_product_changelist") then
    match args with
    | [] => Some "/admin/tests/product/"
    | _ => None
    end
  else if decide (viewname = "admin:tests_product_change") then
    match args with
    | [i] => Some ("/admin/tests/product/" +:+ pretty i +:+ "/")
    | _ => None
    end
  else None.

(** The number of distinct reviewable types of a registry state. *)
Definition distinct_reviewable_types (registry : Registry) : nat :=
  length (remove_dups (get_reviewable_model_classes registry)).

(** ** The test suite's model, [tests/models.py] *)

(** A row of the [Product] table: its primary key and its [name] column. *)
Record ProductRow : Type := {
  product_id : Z;
  product_name : string
}.

(** [Product.__unicode__] *)
Definition Product_unicode (self : ProductRow) : string := product_name self.

(** A product as a polymorphic reference yields it: [.id] is the row's key,
    the string form is [__unicode__]. *)
Definition product_record (self : ProductRow) : ReviewedRecord :=
  {| rec_id := product_id self; rec_text := Product_unicode self |}.

(** The store that holds the rows of the [Product] table and nothing else. *)
Definition product_table (rows : list ProductRow) : Store :=
  list_to_map
    ((λ p, ((meta_app_label Product, meta_model_name Product, product_id p),
            product_record p)) <$> rows).

(** [Product.reviews], the [GenericRelation] to [Review]: the Reviews whose
    reference names the [Product] table and this row's key. *)
Definition Product_reviews (all_reviews : list Review) (self : ProductRow)
  : list Review :=
  filter (λ r, app_label (content_type r) = meta_app_label Product
               ∧ model (content_type r) = meta_model_name Product
               ∧ object_id r = product_id self) all_reviews.

#[global] Instance ProductRow_eq_dec : EqDecision ProductRow.
Proof. solve_decision. Defined.

Definition teapot : ProductRow := {| product_id := 1; product_name := "Teapot" |}.
Definition kettle : ProductRow := {| product_id := 2; product_name := "Kettle" |}.

(** * Properties *)

(** ** Strings and results *)

Lemma append_cons (ch : ascii) (a b : string) :
  String ch a +:+ b = String ch (a +:+ b).
Proof. reflexivity. Qed.

Lemma append_assoc (a b c : string) : (a +:+ b) +:+ c = a +:+ (b +:+ c).
Proof.
  induction a as [|ch a IH]; [reflexivity|].
  rewrite !append_cons. by rewrite IH.
Qed.

Lemma anchor_contains_url (url label : string) : contains (anchor url label) url.
Proof. exists "<a href='", ("'>" +:+ label +:+ "</a>"). reflexivity. Qed.

Lemma anchor_contains_label (url label : string) : contains (anchor url label) label.
Proof.
  exists ("<a href='" +:+ url +:+ "'>"), "</a>".
  unfold anchor. by rewrite !append_assoc.
Qed.

Lemma title_from_length (cased : bool) (s : string) :
  String.length (title_from cased s) = String.length s.
Proof.
  revert cased. induction s as [|c s IH]; intros cased; simpl; [done|].
  destruct (is_lower c); [|destruct (is_upper c)]; simpl; by rewrite IH.
Qed.

Lemma raise_not_returns {A} (e : exn) : ¬ returns (@Raise A e).
Proof. intros [a Ha]. discriminate Ha. Qed.

Lemma ok_not_raises {A} (a : A) : ¬ raises (Ok a).
Proof. intros [e He]. discriminate He. Qed.

(** ** The enumerator's loop *)

Section EnumeratorFacts.

Variable get_for_model : ModelClass → ContentType.

(** The loop with any list accumulated so far: it only ever appends. *)
Lemma append_loop_fmap (acc : list (string * string)) (model_classes : list ModelClass) :
  foldl (λ reviewable_models klass,
           reviewable_models ++
             [(name (get_for_model klass), title (name (get_for_model klass)))])
        acc model_classes
  = acc ++ (choice_of get_for_model <$> model_classes).
Proof.
  revert acc. induction model_classes as [|klass rest IH]; intros acc; simpl.
  - by rewrite app_nil_r.
  - rewrite IH. by rewrite <- app_assoc.
Qed.

Lemma reviewable_models_of_fmap (model_classes : list ModelClass) :
  reviewable_models_of get_for_model model_classes
  = choice_of get_for_model <$> model_classes.
Proof. unfold reviewable_models_of. by rewrite append_loop_fmap. Qed.

Lemma get_reviewable_models_length (registry : Registry) :
  length (get_reviewable_models get_for_model registry)
  = length (get_reviewable_model_classes registry).
Proof.
  unfold get_reviewable_models.
  by rewrite reviewable_models_of_fmap, length_fmap.
Qed.

(** [lookups] by cases on the number of reviewable classes. *)
Lemma lookups_lt (registry : Registry) (request : HttpRequest) (model_admin : ModelAdmin) :
  length (get_reviewable_model_classes registry) < 2 →
  lookups get_for_model registry request model_admin = None.
Proof.
  intros Hlt. unfold lookups. rewrite get_reviewable_models_length.
  by destruct (Nat.ltb_spec (length (get_reviewable_model_classes registry)) 2); [|lia].
Qed.

Lemma lookups_ge (registry : Registry) (request : HttpRequest) (model_admin : ModelAdmin) :
  2 ≤ length (get_reviewable_model_classes registry) →
  lookups get_for_model registry request model_admin
  = Some (get_reviewable_models get_for_model registry).
Proof.
  intros Hge. unfold lookups. rewrite get_reviewable_models_length.
  by destruct (Nat.ltb_spec (length (get_reviewable_model_classes registry)) 2); [lia|].
Qed.

(** The filter built for a request selects what the query string says. *)
Lemma value_new_filter (registry : Registry) (request : HttpRequest) (model_admin : ModelAdmin) :
  value (new_filter get_for_model registry request model_admin)
  = GET request !! parameter_name.
Proof.
  unfold value, new_filter; simpl.
  destruct (GET request !! parameter_name) as [v|] eqn:Hv.
  - by rewrite lookup_singleton_eq.
  - by rewrite lookup_empty.
Qed.

End EnumeratorFacts.

Lemma remove_dups_NoDup {A} `{EqDecision A} (l : list A) : NoDup l → remove_dups l = l.
Proof.
  induction 1 as [|x l Hx Hl IH]; simpl; [done|].
  case_decide; [done|]. by rewrite IH.
Qed.

Lemma distinct_reviewable_types_NoDup (registry : Registry) :
  NoDup registry →
  distinct_reviewable_types registry = length (get_reviewable_model_classes registry).
Proof.
  intros Hnd. unfold distinct_reviewable_types.
  rewrite remove_dups_NoDup; [done|]. by apply NoDup_filter.
Qed.

(** The example of the docstring of [get_reviewable_models]. *)
Example get_reviewable_models_docstring :
  get_reviewable_models meta_content_type [Seller; Invoice; Product]
  = [("seller", "Seller"); ("product", "Product")].
Proof. reflexivity. Qed.

Example title_words : title "hello wORLD foo_bar 3rd x" = "Hello World Foo_Bar 3Rd X".
Proof. reflexivity. Qed.

(** ** The link renderers *)

(** C4, as amended: for every Review whose polymorphic reference resolves to
    an existing record and whose two admin routes reverse to URLs,
    [reviewed_model_linked] returns the anchor made of the type's changelist
    URL and the type's title-cased name, and [reviewed_object_linked] returns
    the anchor made of the record's change URL and the record's string form;
    each returned string contains its URL and its label. *)
Theorem renderers_link_existing
    (reverse : string → list Z → option string) (db : Store) (obj : Review)
    (rec : ReviewedRecord) (url_list url_change : string) :
  reviewed_object db obj = Some rec →
  reverse (changelist_viewname obj) [] = Some url_list →
  reverse (change_viewname obj) [rec_id rec] = Some url_change →
  (∃ s, reviewed_model_linked reverse obj = Ok s
        ∧ s = anchor url_list (title (name (content_type obj)))
        ∧ contains s url_list
        ∧ contains s (title (name (content_type obj))))
  ∧ (∃ s, reviewed_object_linked reverse db obj = Ok s
          ∧ s = anchor url_change (rec_text rec)
          ∧ contains s url_change
          ∧ contains s (rec_text rec)).
Proof.
  intros Hrec Hlist Hchange. split.
  - exists (anchor url_list (title (name (content_type obj)))).
    split; [|split; [done|split]].
    + unfold reviewed_model_linked, reverse_url. by rewrite Hlist.
    + apply anchor_contains_url.
    + apply anchor_contains_label.
  - exists (anchor url_change (rec_text rec)).
    split; [|split; [done|split]].
    + unfold reviewed_object_linked, reverse_url. rewrite Hrec; simpl.
      by rewrite Hchange.
    + apply anchor_contains_url.
    + apply anchor_contains_label.
Qed.

Lemma renderers_link_existing_witness :
  (∃ s, reviewed_model_linked product_routes review1 = Ok s
        ∧ s = anchor "/admin/tests/product/" "Product"
        ∧ contains s "/admin/tests/product/"
        ∧ contains s "Product")
  ∧ (∃ s, reviewed_object_linked product_routes db1 review1 = Ok s
          ∧ s = anchor "/admin/tests/product/1/" "Teapot"
          ∧ contains s "/admin/tests/product/1/"
          ∧ contains s "Teapot").
Proof.
  apply (renderers_link_existing product_routes db1 review1 product1
           "/admin/tests/product/" "/admin/tests/product/1/");
    vm_compute; reflexivity.
Defined.

(** C4, as stated, fails: the reference of [review1] resolves to an existing
    record, but with no admin route to reverse neither renderer returns a
    string. *)
Lemma renderers_without_route :
  reviewed_object db1 review1 = Some product1
  ∧ reviewed_model_linked no_routes review1
    = Raise (NoReverseMatch "admin:tests_product_changelist")
  ∧ reviewed_object_linked no_routes db1 review1
    = Raise (NoReverseMatch "admin:tests_product_change")
  ∧ ¬ returns (reviewed_model_linked no_routes review1)
  ∧ ¬ returns (reviewed_object_linked no_routes db1 review1).
Proof.
  assert (Hdb : reviewed_object db1 review1 = Some product1)
    by (vm_compute; reflexivity).
  assert (Hm : reviewed_model_linked no_routes review1
               = Raise (NoReverseMatch "admin:tests_product_changelist"))
    by reflexivity.
  assert (Ho : reviewed_object_linked no_routes db1 review1
               = Raise (NoReverseMatch "admin:tests_product_change"))
    by (vm_compute; reflexivity).
  repeat split; try done.
  - rewrite Hm. apply raise_not_returns.
  - rewrite Ho. apply raise_not_returns.
Qed.

(** C8, as amended: neither renderer catches anything, and where it fails
    no value is returned.  [reviewed_model_linked] fails with
    [NoReverseMatch] whenever its changelist route does not reverse.
    [reviewed_object_linked] fails with the [AttributeError] of reading [.id]
    whenever the reference is dangling, whether or not a route would
    reverse, and with [NoReverseMatch] whenever the reference resolves and
    the change route of the record does not reverse.
    [reviewed_model_linked] does not read the referenced record: whenever
    its changelist route reverses it returns the link, dangling reference or
    not. *)
Theorem renderers_propagate_errors
    (reverse : string → list Z → option string) (db : Store) (obj : Review) :
  (reverse (changelist_viewname obj) [] = None →
     reviewed_model_linked reverse obj
     = Raise (NoReverseMatch (changelist_viewname obj)))
  ∧ (reviewed_object db obj = None →
       reviewed_object_linked reverse db obj = Raise (AttributeError "id"))
  ∧ (∀ rec, reviewed_object db obj = Some rec →
       reverse (change_viewname obj) [rec_id rec] = None →
       reviewed_object_linked reverse db obj
       = Raise (NoReverseMatch (change_viewname obj)))
  ∧ (∀ url, reverse (changelist_viewname obj) [] = Some url →
       reviewed_model_linked reverse obj
       = Ok (anchor url (title (name (content_type obj))))).
Proof.
  repeat split.
  - intros Hnone. unfold reviewed_model_linked, reverse_url. by rewrite Hnone.
  - intros Hdangling. unfold reviewed_object_linked. by rewrite Hdangling.
  - intros rec Hrec Hnone. unfold reviewed_object_linked, reverse_url.
    rewrite Hrec; simpl. by rewrite Hnone.
  - intros url Hurl. unfold reviewed_model_linked, reverse_url. by rewrite Hurl.
Qed.

Lemma renderers_propagate_errors_witness :
  reviewed_model_linked no_routes review1
  = Raise (NoReverseMatch "admin:tests_product_changelist")
  ∧ reviewed_object_linked product_routes ∅ review1 = Raise (AttributeError "id")
  ∧ reviewed_object_linked no_routes db1 review1
    = Raise (NoReverseMatch "admin:tests_product_change")
  ∧ reviewed_model_linked product_routes review1
    = Ok "<a href='/admin/tests/product/'>Product</a>".
Proof.
  split; [|split; [|split]].
  - apply (renderers_propagate_errors no_routes db1 review1). reflexivity.
  - apply (renderers_propagate_errors product_routes ∅ review1). reflexivity.
  - apply (proj1 (proj2 (proj2 (renderers_propagate_errors no_routes db1 review1)))
             product1); vm_compute; reflexivity.
  - apply (proj2 (proj2 (proj2 (renderers_propagate_errors product_routes ∅ review1)))
             "/admin/tests/product/"). vm_compute; reflexivity.
Defined.

(** C8, as stated, fails: the reference of [review1] is dangling in the empty
    store, and [reviewed_model_linked] returns its link all the same; there
    is no error to propagate. *)
Lemma model_link_of_dangling_review :
  reviewed_object ∅ review1 = None
  ∧ reviewed_model_linked product_routes review1
    = Ok "<a href='/admin/tests/product/'>Product</a>"
  ∧ ¬ raises (reviewed_model_linked product_routes review1).
Proof.
  assert (Hm : reviewed_model_linked product_routes review1
               = Ok "<a href='/admin/tests/product/'>Product</a>")
    by (vm_compute; reflexivity).
  split; [reflexivity|]. split; [done|].
  rewrite Hm. apply ok_not_raises.
Qed.

(** ** The enumerator *)

(** C5: [get_reviewable_models] returns the (key, display label) pairs of
    exactly the record types of the registry that implement the Reviewable
    capability, in the registry's order; for an empty registry result it
    returns the empty list. *)
Theorem get_reviewable_models_registry_order
    (get_for_model : ModelClass → ContentType) (registry : Registry) :
  get_reviewable_models get_for_model registry
  = choice_of get_for_model <$> filter (λ klass, reviewable klass = true) registry
  ∧ get_reviewable_models get_for_model [] = []
  ∧ reviewable_models_of get_for_model [] = [].
Proof.
  split; [|done].
  unfold get_reviewable_models, get_reviewable_model_classes.
  apply reviewable_models_of_fmap.
Qed.

(** C10: the loop of [get_reviewable_models] produces exactly one pair per
    class it is given, position by position and without deduplication, and
    the label of every pair is the title-cased key. *)
Theorem reviewable_models_of_one_pair_per_class
    (get_for_model : ModelClass → ContentType) (model_classes : list ModelClass) :
  length (reviewable_models_of get_for_model model_classes) = length model_classes
  ∧ Forall (λ pair, pair.2 = title pair.1)
           (reviewable_models_of get_for_model model_classes)
  ∧ ∀ i : nat,
      reviewable_models_of get_for_model model_classes !! i
      = choice_of get_for_model <$> model_classes !! i.
Proof.
  rewrite reviewable_models_of_fmap. split; [|split].
  - apply length_fmap.
  - apply Forall_fmap, Forall_forall. by intros klass _.
  - intros i. apply list_lookup_fmap.
Qed.

(** ** The filter's choices *)

(** C2: with fewer than two reviewable record types in the registry,
    [lookups] returns [None]; the filter then has no choices and is not
    shown. *)
Theorem lookups_hidden_below_two
    (get_for_model : ModelClass → ContentType) (registry : Registry)
    (request : HttpRequest) (model_admin : ModelAdmin) :
  length (get_reviewable_model_classes registry) < 2 →
  lookups get_for_model registry request model_admin = None
  ∧ lookup_choices (new_filter get_for_model registry request model_admin) = []
  ∧ has_output (new_filter get_for_model registry request model_admin) = false.
Proof.
  intros Hlt. pose proof (lookups_lt get_for_model registry request model_admin Hlt) as Hnone.
  split; [done|].
  unfold has_output, new_filter; simpl. by rewrite Hnone.
Qed.

Lemma lookups_hidden_below_two_witness :
  length (get_reviewable_model_classes [Invoice; Product]) < 2
  ∧ lookups meta_content_type [Invoice; Product] {| GET := ∅ |} ReviewAdmin = None
  ∧ lookup_choices (new_filter meta_content_type [Invoice; Product] {| GET := ∅ |} ReviewAdmin) = []
  ∧ has_output (new_filter meta_content_type [Invoice; Product] {| GET := ∅ |} ReviewAdmin) = false.
Proof.
  assert (Hlt : length (get_reviewable_model_classes [Invoice; Product]) < 2)
    by (vm_compute; lia).
  split; [exact Hlt|].
  exact (lookups_hidden_below_two meta_content_type [Invoice; Product]
           {| GET := ∅ |} ReviewAdmin Hlt).
Defined.

(** C3: in a registry state with [n] distinct reviewable record types the
    filter's choice list has length [n], except that with exactly one type
    the filter offers no choices. *)
Theorem lookup_choices_count
    (get_for_model : ModelClass → ContentType) (registry : Registry)
    (request : HttpRequest) (model_admin : ModelAdmin) (n : nat) :
  NoDup registry →
  distinct_reviewable_types registry = n →
  (n ≠ 1 →
     length (lookup_choices (new_filter get_for_model registry request model_admin)) = n)
  ∧ (n = 1 →
       lookups get_for_model registry request model_admin = None
       ∧ lookup_choices (new_filter get_for_model registry request model_admin) = []).
Proof.
  intros Hnd Hn. rewrite distinct_reviewable_types_NoDup in Hn by done.
  unfold new_filter; simpl. split.
  - intros Hne. destruct (decide (n < 2)) as [Hlt|Hge].
    + rewrite lookups_lt by lia. simpl. lia.
    + rewrite lookups_ge by lia. simpl.
      by rewrite get_reviewable_models_length.
  - intros ->. by rewrite lookups_lt by lia.
Qed.

Lemma lookup_choices_count_witness :
  (NoDup [Seller; Invoice; Product]
   ∧ distinct_reviewable_types [Seller; Invoice; Product] = 2
   ∧ length (lookup_choices
               (new_filter meta_content_type [Seller; Invoice; Product]
                  {| GET := ∅ |} ReviewAdmin)) = 2)
  ∧ (NoDup [Invoice; Product]
     ∧ distinct_reviewable_types [Invoice; Product] = 1
     ∧ lookups meta_content_type [Invoice; Product] {| GET := ∅ |} ReviewAdmin = None
     ∧ lookup_choices
         (new_filter meta_content_type [Invoice; Product] {| GET := ∅ |} ReviewAdmin)
       = []).
Proof.
  assert (Hnd3 : NoDup [Seller; Invoice; Product])
    by (apply (bool_decide_unpack _); vm_compute; exact I).
  assert (Hn3 : distinct_reviewable_types [Seller; Invoice; Product] = 2)
    by (vm_compute; reflexivity).
  assert (Hnd2 : NoDup [Invoice; Product])
    by (apply (bool_decide_unpack _); vm_compute; exact I).
  assert (Hn2 : distinct_reviewable_types [Invoice; Product] = 1)
    by (vm_compute; reflexivity).
  split.
  - split; [exact Hnd3|]. split; [exact Hn3|].
    apply (lookup_choices_count meta_content_type [Seller; Invoice; Product]
             {| GET := ∅ |} ReviewAdmin 2 Hnd3 Hn3). lia.
  - split; [exact Hnd2|]. split; [exact Hn2|].
    apply (lookup_choices_count meta_content_type [Invoice; Product]
             {| GET := ∅ |} ReviewAdmin 1 Hnd2 Hn2). reflexivity.
Defined.

(** C9: [lookups] returns either [None] or a list of at least two choices;
    never the empty list, never a list of one choice. *)
Theorem lookups_none_or_at_least_two
    (get_for_model : ModelClass → ContentType) (registry : Registry)
    (request : HttpRequest) (model_admin : ModelAdmin) :
  (lookups get_for_model registry request model_admin = None
   ∨ ∃ choices, lookups get_for_model registry request model_admin = Some choices
                ∧ 2 ≤ length choices)
  ∧ lookups get_for_model registry request model_admin ≠ Some []
  ∧ ∀ choice, lookups get_for_model registry request model_admin ≠ Some [choice].
Proof.
  unfold lookups.
  destruct (Nat.ltb_spec (length (get_reviewable_models get_for_model registry)) 2)
    as [Hlt|Hge].
  - split; [by left|]. split; [done|]. by intros choice.
  - split; [right; eauto|]. split.
    + intros [= Heq]. rewrite Heq in Hge. simpl in Hge. lia.
    + intros choice [= Heq]. rewrite Heq in Hge. simpl in Hge. lia.
Qed.

(** ** The filter's queryset *)

(** C1: when the selected value of [reviewed_model] is [k], [queryset]
    returns exactly the Reviews of the input whose content type is named
    [k]: every returned Review is such a Review of the input, every such
    Review of the input is returned, and the input's order is kept. *)
Theorem queryset_selected_value
    (self : ReviewedModelListFilter) (request : HttpRequest)
    (qs : list Review) (k : string) :
  value self = Some k →
  ∃ res, queryset self request qs = Some res
         ∧ (∀ r, r ∈ res ↔ r ∈ qs ∧ name (content_type r) = k)
         ∧ res = filter (λ r, name (content_type r) = k) qs
         ∧ sublist res qs.
Proof.
  intros Hv. exists (filter_content_type__name k qs).
  unfold queryset. rewrite Hv. split; [done|].
  unfold filter_content_type__name. split; [|split; [done|]].
  - intros r. rewrite list_elem_of_filter. tauto.
  - apply sublist_filter.
Qed.

Lemma queryset_selected_value_witness :
  ∃ res,
    queryset (new_filter meta_content_type [Seller; Product]
                {| GET := {[ "reviewed_model" := "seller" ]} |} ReviewAdmin)
             {| GET := {[ "reviewed_model" := "seller" ]} |}
             [review1; review2; review1] = Some res
    ∧ (∀ r, r ∈ res ↔ r ∈ [review1; review2; review1] ∧ name (content_type r) = "seller")
    ∧ res = filter (λ r, name (content_type r) = "seller") [review1; review2; review1]
    ∧ sublist res [review1; review2; review1].
Proof.
  apply (queryset_selected_value
           (new_filter meta_content_type [Seller; Product]
              {| GET := {[ "reviewed_model" := "seller" ]} |} ReviewAdmin)
           {| GET := {[ "reviewed_model" := "seller" ]} |}
           [review1; review2; review1] "seller").
  vm_compute; reflexivity.
Defined.

(** C6: when no value is selected, [queryset] is a no-op: it returns [None],
    and the list of Reviews the change list goes on with is the input
    queryset, unchanged. *)
Theorem queryset_no_value_noop
    (self : ReviewedModelListFilter) (request : HttpRequest) (qs : list Review) :
  value self = None →
  queryset self request qs = None
  ∧ changelist_apply self request qs = qs.
Proof.
  intros Hv. unfold changelist_apply, queryset. rewrite Hv.
  by destruct (has_output self).
Qed.

Lemma queryset_no_value_noop_witness :
  queryset (new_filter meta_content_type [Seller; Product] {| GET := ∅ |} ReviewAdmin)
           {| GET := ∅ |} [review1; review2] = None
  ∧ changelist_apply
      (new_filter meta_content_type [Seller; Product] {| GET := ∅ |} ReviewAdmin)
      {| GET := ∅ |} [review1; review2] = [review1; review2].
Proof.
  apply (queryset_no_value_noop
           (new_filter meta_content_type [Seller; Product] {| GET := ∅ |} ReviewAdmin)
           {| GET := ∅ |} [review1; review2]).
  reflexivity.
Defined.

(** ** The registration *)

(** C7: the options registered for [Review] have as read-only fields the two
    rendered links, user, score, created time and updated flag, and as
    fields the read-only ones followed by comment, anonymous flag and
    approval flag, and nothing else. *)
Theorem ReviewAdmin_field_sets :
  admin_site !! "Review" = Some ReviewAdmin
  ∧ readonly_fields ReviewAdmin
    = [ Callable ReviewedModelLinked; Callable ReviewedObjectLinked;
        Attr "user"; Attr "score"; Attr "created"; Attr "is_updated" ]
  ∧ fields ReviewAdmin
    = readonly_fields ReviewAdmin
      ++ [ Attr "comment"; Attr "anonymous"; Attr "comment_approved" ]
  ∧ fields ReviewAdmin
    = [ Callable ReviewedModelLinked; Callable ReviewedObjectLinked;
        Attr "user"; Attr "score"; Attr "created"; Attr "is_updated";
        Attr "comment"; Attr "anonymous"; Attr "comment_approved" ]
  ∧ NoDup (fields ReviewAdmin).
Proof.
  split; [apply lookup_singleton_eq|].
  repeat split; try reflexivity.
  apply (bool_decide_unpack _). vm_compute. exact I.
Qed.

(** * Further properties of the module *)

(** ** The filter at work *)

(** What the change list gets from the filter, by the selected value. *)
Lemma changelist_apply_value
    (self : ReviewedModelListFilter) (request : HttpRequest) (qs : list Review) :
  changelist_apply self request qs
  = if has_output self then
      match value self with
      | Some v => filter_content_type__name v qs
      | None => qs
      end
    else qs.
Proof. unfold changelist_apply, queryset. by destruct (value self). Qed.

(** Whether the filter built for a request is shown depends on the registry
    alone. *)
Lemma has_output_new_filter
    (get_for_model : ModelClass → ContentType) (registry : Registry)
    (request : HttpRequest) (model_admin : ModelAdmin) :
  has_output (new_filter get_for_model registry request model_admin)
  = bool_decide (2 ≤ length (get_reviewable_model_classes registry)).
Proof.
  unfold has_output, new_filter; simpl.
  destruct (decide (2 ≤ length (get_reviewable_model_classes registry))) as [Hge|Hlt].
  - rewrite lookups_ge by done. simpl. rewrite get_reviewable_models_length.
    rewrite bool_decide_true by done. apply Nat.ltb_lt. lia.
  - rewrite lookups_lt by lia. simpl. by rewrite bool_decide_false.
Qed.

Lemma filter_content_type__name_twice (k k' : string) (qs : list Review) :
  filter_content_type__name k' (filter_content_type__name k qs)
  = if decide (k = k') then filter_content_type__name k qs else [].
Proof.
  unfold filter_content_type__name.
  induction qs as [|r qs IH]; [by case_decide|].
  rewrite (filter_cons _ r qs).
  destruct (decide (name (content_type r) = k)) as [Hk|Hk]; [|done].
  rewrite filter_cons, IH.
  destruct (decide (name (content_type r) = k')) as [Hk'|Hk'];
    destruct (decide (k = k')) as [Heq|Hne]; congruence.
Qed.

(** A returned list of choices is the enumerator's, and there are at least
    two reviewable types behind it. *)
Lemma lookups_Some_inv
    (get_for_model : ModelClass → ContentType) (registry : Registry)
    (request : HttpRequest) (model_admin : ModelAdmin)
    (choices : list (string * string)) :
  lookups get_for_model registry request model_admin = Some choices →
  choices = choice_of get_for_model <$> get_reviewable_model_classes registry
  ∧ 2 ≤ length (get_reviewable_model_classes registry).
Proof.
  unfold lookups. rewrite get_reviewable_models_length.
  destruct (Nat.ltb_spec (length (get_reviewable_model_classes registry)) 2)
    as [Hlt|Hge]; [done|].
  intros [= <-]. split; [|done].
  unfold get_reviewable_models. apply reviewable_models_of_fmap.
Qed.

(** X2: filtering composes: when [queryset] with selected value [k] has
    produced a list and [queryset] with selected value [k'] is called on that
    list, the second call returns the list unchanged if [k = k'] and the
    empty list if the values differ. *)
Theorem queryset_twice
    (self self' : ReviewedModelListFilter) (request request' : HttpRequest)
    (qs : list Review) (k k' : string) :
  value self = Some k →
  value self' = Some k' →
  ∃ res, queryset self request qs = Some res
         ∧ queryset self' request' res = Some (if decide (k = k') then res else []).
Proof.
  intros Hv Hv'. exists (filter_content_type__name k qs).
  unfold queryset. rewrite Hv, Hv'. split; [done|].
  by rewrite filter_content_type__name_twice.
Qed.

Lemma queryset_twice_witness :
  ∃ res,
    queryset (new_filter meta_content_type [Seller; Product]
                {| GET := {[ "reviewed_model" := "seller" ]} |} ReviewAdmin)
             {| GET := {[ "reviewed_model" := "seller" ]} |}
             [review1; review2; review1] = Some res
    ∧ queryset (new_filter meta_content_type [Seller; Product]
                  {| GET := {[ "reviewed_model" := "product" ]} |} ReviewAdmin)
               {| GET := {[ "reviewed_model" := "product" ]} |} res
      = Some (if decide ("seller" = "product") then res else []).
Proof.
  apply (queryset_twice
           (new_filter meta_content_type [Seller; Product]
              {| GET := {[ "reviewed_model" := "seller" ]} |} ReviewAdmin)
           (new_filter meta_content_type [Seller; Product]
              {| GET := {[ "reviewed_model" := "product" ]} |} ReviewAdmin)
           {| GET := {[ "reviewed_model" := "seller" ]} |}
           {| GET := {[ "reviewed_model" := "product" ]} |}
           [review1; review2; review1] "seller" "product");
    vm_compute; reflexivity.
Defined.

(** X3: whatever is selected, the filter only ever drops rows: what the
    change list goes on with is a sub-list of the input, in the input's
    order and no longer than it, and the filter treats a concatenated
    queryset part by part. *)
Theorem changelist_apply_only_drops
    (self : ReviewedModelListFilter) (request : HttpRequest)
    (qs qs' : list Review) :
  sublist (changelist_apply self request qs) qs
  ∧ length (changelist_apply self request qs) ≤ length qs
  ∧ changelist_apply self request (qs ++ qs')
    = changelist_apply self request qs ++ changelist_apply self request qs'.
Proof.
  assert (Hsub : sublist (changelist_apply self request qs) qs).
  { rewrite changelist_apply_value.
    destruct (has_output self); [|done]. destruct (value self); [|done].
    apply sublist_filter. }
  split; [done|]. split; [by apply sublist_length|].
  rewrite !changelist_apply_value.
  destruct (has_output self); [|done]. destruct (value self); [|done].
  apply filter_app.
Qed.

(** X4: of the query string, the filter built for a request reads the
    [reviewed_model] parameter and nothing else.  With at least two
    reviewable types the change list's result is the selection by that
    parameter's value, or the input when the parameter is absent; with fewer
    the filter is not shown and the result is the input.  Setting any other
    parameter changes nothing. *)
Theorem filter_reads_only_its_parameter
    (get_for_model : ModelClass → ContentType) (registry : Registry)
    (request : HttpRequest) (model_admin : ModelAdmin)
    (key v : string) (qs : list Review) :
  key ≠ "reviewed_model" →
  changelist_apply (new_filter get_for_model registry request model_admin) request qs
  = (if decide (2 ≤ length (get_reviewable_model_classes registry)) then
       match GET request !! "reviewed_model" with
       | Some k => filter (λ r, name (content_type r) = k) qs
       | None => qs
       end
     else qs)
  ∧ changelist_apply
      (new_filter get_for_model registry {| GET := <[key := v]> (GET request) |} model_admin)
      {| GET := <[key := v]> (GET request) |} qs
    = changelist_apply (new_filter get_for_model registry request model_admin) request qs.
Proof.
  intros Hkey.
  rewrite !changelist_apply_value, !has_output_new_filter, !value_new_filter.
  split.
  - by destruct (decide (2 ≤ length (get_reviewable_model_classes registry)));
      [rewrite bool_decide_true | rewrite bool_decide_false].
  - simpl. unfold parameter_name. by rewrite lookup_insert_ne.
Qed.

Lemma filter_reads_only_its_parameter_witness :
  changelist_apply
    (new_filter meta_content_type [Seller; Product]
       {| GET := {[ "reviewed_model" := "seller" ]} |} ReviewAdmin)
    {| GET := {[ "reviewed_model" := "seller" ]} |} [review1; review2]
  = (if decide (2 ≤ length (get_reviewable_model_classes [Seller; Product])) then
       match ({[ "reviewed_model" := "seller" ]} : gmap string string) !! "reviewed_model" with
       | Some k => filter (λ r, name (content_type r) = k) [review1; review2]
       | None => [review1; review2]
       end
     else [review1; review2])
  ∧ changelist_apply
      (new_filter meta_content_type [Seller; Product]
         {| GET := <["score" := "4"]> {[ "reviewed_model" := "seller" ]} |} ReviewAdmin)
      {| GET := <["score" := "4"]> {[ "reviewed_model" := "seller" ]} |} [review1; review2]
    = changelist_apply
        (new_filter meta_content_type [Seller; Product]
           {| GET := {[ "reviewed_model" := "seller" ]} |} ReviewAdmin)
        {| GET := {[ "reviewed_model" := "seller" ]} |} [review1; review2].
Proof.
  assert (Hkey : "score" ≠ "reviewed_model") by discriminate.
  exact (filter_reads_only_its_parameter meta_content_type [Seller; Product]
           {| GET := {[ "reviewed_model" := "seller" ]} |} ReviewAdmin
           "score" "4" [review1; review2] Hkey).
Defined.

(** ** The offered choices *)

(** X5: when [lookups] returns choices, they are exactly the pairs of the
    reviewable types of the registry: every offered pair is the (name,
    title-cased name) of some reviewable type, and every reviewable type has
    its pair offered. *)
Theorem lookups_choices_sound_complete
    (get_for_model : ModelClass → ContentType) (registry : Registry)
    (request : HttpRequest) (model_admin : ModelAdmin)
    (choices : list (string * string)) :
  lookups get_for_model registry request model_admin = Some choices →
  ∀ pair, pair ∈ choices
          ↔ ∃ klass, klass ∈ registry ∧ reviewable klass = true
                     ∧ pair = choice_of get_for_model klass.
Proof.
  intros Hl pair. apply lookups_Some_inv in Hl as [-> _].
  unfold get_reviewable_model_classes.
  rewrite list_elem_of_fmap. split.
  - intros (klass & -> & Hin). apply list_elem_of_filter in Hin as [Hr Hin].
    by exists klass.
  - intros (klass & Hin & Hr & ->). exists klass. split; [done|].
    by apply list_elem_of_filter.
Qed.

Lemma lookups_choices_sound_complete_witness :
  ("product", "Product") ∈ [("seller", "Seller"); ("product", "Product")]
  ↔ ∃ klass, klass ∈ [Seller; Invoice; Product] ∧ reviewable klass = true
             ∧ ("product", "Product") = choice_of meta_content_type klass.
Proof.
  apply (lookups_choices_sound_complete meta_content_type [Seller; Invoice; Product]
           {| GET := ∅ |} ReviewAdmin [("seller", "Seller"); ("product", "Product")]).
  reflexivity.
Defined.

(** X6: the filter is shown exactly when at least two reviewable types
    exist. *)
Theorem has_output_iff_two_types
    (get_for_model : ModelClass → ContentType) (registry : Registry)
    (request : HttpRequest) (model_admin : ModelAdmin) :
  has_output (new_filter get_for_model registry request model_admin) = true
  ↔ 2 ≤ length (get_reviewable_model_classes registry).
Proof.
  unfold has_output, new_filter; simpl.
  destruct (decide (length (get_reviewable_model_classes registry) < 2)) as [Hlt|Hge].
  - rewrite lookups_lt by done. simpl. split; [done|lia].
  - rewrite lookups_ge by lia. simpl. rewrite get_reviewable_models_length.
    split; [lia|]. intros _. apply Nat.ltb_lt. lia.
Qed.

(** X7: every Review of a reviewable type can be reached through the
    filter: with at least two reviewable types, the name of the Review's type
    is the key of an offered choice, and selecting that key keeps the
    Review. *)
Theorem offered_choice_reaches_review
    (get_for_model : ModelClass → ContentType) (registry : Registry)
    (request : HttpRequest) (model_admin : ModelAdmin)
    (klass : ModelClass) (r : Review) (qs : list Review) :
  2 ≤ length (get_reviewable_model_classes registry) →
  klass ∈ registry →
  reviewable klass = true →
  content_type r = get_for_model klass →
  r ∈ qs →
  ∃ choices,
    lookups get_for_model registry request model_admin = Some choices
    ∧ (name (content_type r), title (name (content_type r))) ∈ choices
    ∧ r ∈ changelist_apply
            (new_filter get_for_model registry
               {| GET := {[ "reviewed_model" := name (content_type r) ]} |} model_admin)
            {| GET := {[ "reviewed_model" := name (content_type r) ]} |} qs.
Proof.
  intros Hge Hin Hr Hct Hqs.
  exists (get_reviewable_models get_for_model registry).
  split; [by apply lookups_ge|]. split.
  - unfold get_reviewable_models. rewrite reviewable_models_of_fmap, Hct.
    apply (list_elem_of_fmap_2 (choice_of get_for_model)).
    by apply list_elem_of_filter.
  - rewrite changelist_apply_value, has_output_new_filter, value_new_filter.
    rewrite bool_decide_true by done. simpl.
    unfold parameter_name. rewrite lookup_singleton_eq.
    by apply list_elem_of_filter.
Qed.

Lemma offered_choice_reaches_review_witness :
  ∃ choices,
    lookups meta_content_type [Seller; Invoice; Product] {| GET := ∅ |} ReviewAdmin
    = Some choices
    ∧ (name (content_type review1), title (name (content_type review1))) ∈ choices
    ∧ review1 ∈ changelist_apply
            (new_filter meta_content_type [Seller; Invoice; Product]
               {| GET := {[ "reviewed_model" := name (content_type review1) ]} |}
               ReviewAdmin)
            {| GET := {[ "reviewed_model" := name (content_type review1) ]} |}
            [review2; review1].
Proof.
  apply (offered_choice_reaches_review meta_content_type [Seller; Invoice; Product]
           {| GET := ∅ |} ReviewAdmin Product review1 [review2; review1]).
  - vm_compute. lia.
  - apply (bool_decide_unpack _). vm_compute. exact I.
  - reflexivity.
  - reflexivity.
  - apply (bool_decide_unpack _). vm_compute. exact I.
Defined.

(** X8: choices never disappear when the registry grows: if [lookups]
    offers choices for a registry, then for that registry followed by further
    types it offers the same choices followed by the pairs of the further
    reviewable types. *)
Theorem lookups_registry_grows
    (get_for_model : ModelClass → ContentType) (registry more : Registry)
    (request : HttpRequest) (model_admin : ModelAdmin)
    (choices : list (string * string)) :
  lookups get_for_model registry request model_admin = Some choices →
  lookups get_for_model (registry ++ more) request model_admin
  = Some (choices ++ get_reviewable_models get_for_model more).
Proof.
  intros Hl. apply lookups_Some_inv in Hl as [-> Hge].
  assert (Happ : get_reviewable_model_classes (registry ++ more)
                 = get_reviewable_model_classes registry
                   ++ get_reviewable_model_classes more)
    by apply filter_app.
  rewrite lookups_ge.
  - unfold get_reviewable_models.
    by rewrite !reviewable_models_of_fmap, Happ, fmap_app.
  - rewrite Happ, length_app. lia.
Qed.

Lemma lookups_registry_grows_witness :
  lookups meta_content_type ([Seller; Product] ++ [Invoice; Product])
    {| GET := ∅ |} ReviewAdmin
  = Some ([("seller", "Seller"); ("product", "Product")]
          ++ get_reviewable_models meta_content_type [Invoice; Product]).
Proof.
  apply (lookups_registry_grows meta_content_type [Seller; Product] [Invoice; Product]
           {| GET := ∅ |} ReviewAdmin).
  reflexivity.
Defined.

(** ** When the renderers return, and how they fail *)

(** X9: the renderers return a link in exactly these cases:
    [reviewed_model_linked] when the changelist route of the Review's type
    reverses, and [reviewed_object_linked] when the reference resolves to a
    record and the change route reverses for that record's id. *)
Theorem renderers_return_iff
    (reverse : string → list Z → option string) (db : Store) (obj : Review) :
  (returns (reviewed_model_linked reverse obj)
   ↔ is_Some (reverse (changelist_viewname obj) []))
  ∧ (returns (reviewed_object_linked reverse db obj)
     ↔ ∃ rec, reviewed_object db obj = Some rec
              ∧ is_Some (reverse (change_viewname obj) [rec_id rec])).
Proof.
  unfold reviewed_model_linked, reviewed_object_linked, reverse_url, returns.
  split.
  - destruct (reverse (changelist_viewname obj) []) as [url|]; simpl.
    + split; eauto.
    + split; [intros [a Ha]; discriminate Ha | intros [url Hurl]; discriminate Hurl].
  - destruct (reviewed_object db obj) as [rec|]; simpl.
    + destruct (reverse (change_viewname obj) [rec_id rec]) as [url|] eqn:Hurl; simpl.
      * split; [intros _; exists rec; by rewrite Hurl | eauto].
      * split; [intros [a Ha]; discriminate Ha|].
        intros (rec' & [= <-] & [url Hsome]). congruence.
    + split; [intros [a Ha]; discriminate Ha | intros (rec & Hrec & _); discriminate Hrec].
Qed.

(** X10: the only exceptions that leave the renderers:
    [reviewed_model_linked] never raises anything but the [NoReverseMatch]
    of its changelist route; [reviewed_object_linked] raises the
    [AttributeError] exactly when the reference is dangling, whether or not
    a route would reverse, and otherwise nothing but the [NoReverseMatch] of
    its change route. *)
Theorem renderers_exceptions
    (reverse : string → list Z → option string) (db : Store) (obj : Review)
    (e : exn) :
  (reviewed_model_linked reverse obj = Raise e →
     e = NoReverseMatch (changelist_viewname obj)
     ∧ reverse (changelist_viewname obj) [] = None)
  ∧ (reviewed_object_linked reverse db obj = Raise e →
       (e = AttributeError "id" ∧ reviewed_object db obj = None)
       ∨ (e = NoReverseMatch (change_viewname obj)
          ∧ ∃ rec, reviewed_object db obj = Some rec
                   ∧ reverse (change_viewname obj) [rec_id rec] = None))
  ∧ (reviewed_object_linked reverse db obj = Raise (AttributeError "id")
     ↔ reviewed_object db obj = None).
Proof.
  unfold reviewed_model_linked, reviewed_object_linked, reverse_url.
  split; [|split].
  - destruct (reverse (changelist_viewname obj) []) as [url|]; simpl.
    + intros Hr; discriminate Hr.
    + by intros [= <-].
  - destruct (reviewed_object db obj) as [rec|]; simpl.
    + destruct (reverse (change_viewname obj) [rec_id rec]) as [url|] eqn:Hurl; simpl.
      * intros Hr; discriminate Hr.
      * intros [= <-]. right. split; [done|]. by exists rec.
    + intros [= <-]. by left.
  - destruct (reviewed_object db obj) as [rec|]; simpl; [|done].
    destruct (reverse (change_viewname obj) [rec_id rec]) as [url|]; simpl;
      split; intros Hr; discriminate Hr.
Qed.

Lemma renderers_exceptions_witness :
  (NoReverseMatch "admin:tests_product_changelist"
   = NoReverseMatch (changelist_viewname review1)
   ∧ no_routes (changelist_viewname review1) [] = None)
  ∧ ((AttributeError "id" = AttributeError "id" ∧ reviewed_object ∅ review1 = None)
     ∨ (AttributeError "id" = NoReverseMatch (change_viewname review1)
        ∧ ∃ rec, reviewed_object ∅ review1 = Some rec
                 ∧ no_routes (change_viewname review1) [rec_id rec] = None))
  ∧ reviewed_object_linked no_routes ∅ review1 = Raise (AttributeError "id").
Proof.
  split; [|split].
  - apply (renderers_exceptions no_routes db1 review1
             (NoReverseMatch "admin:tests_product_changelist")).
    reflexivity.
  - apply (proj1 (proj2 (renderers_exceptions no_routes ∅ review1 (AttributeError "id")))).
    reflexivity.
  - apply (proj2 (proj2 (renderers_exceptions no_routes ∅ review1 (AttributeError "id")))).
    reflexivity.
Defined.

(** ** Reviews of the test suite's products *)

Lemma product_table_lookup (rows : list ProductRow) (p : ProductRow) :
  NoDup (product_id <$> rows) →
  p ∈ rows →
  product_table rows !! (meta_app_label Product, meta_model_name Product, product_id p)
  = Some (product_record p).
Proof.
  intros Hnd Hin. unfold product_table.
  apply elem_of_list_to_map_1.
  - rewrite <- list_fmap_compose.
    change (NoDup ((λ p0, (meta_app_label Product, meta_model_name Product, product_id p0))
                     <$> rows)).
    rewrite (list_fmap_compose product_id
               (λ i, (meta_app_label Product, meta_model_name Product, i))).
    apply NoDup_fmap_2; [|done]. intros i j [= ->]. reflexivity.
  - apply (list_elem_of_fmap_2
             (λ p0, ((meta_app_label Product, meta_model_name Product, product_id p0),
                     product_record p0))).
    done.
Qed.

Lemma product_table_lookup_inv (rows : list ProductRow) (key : string * string * Z)
    (rec : ReviewedRecord) :
  product_table rows !! key = Some rec →
  ∃ p, p ∈ rows
       ∧ key = (meta_app_label Product, meta_model_name Product, product_id p)
       ∧ rec = product_record p.
Proof.
  intros Hl. unfold product_table in Hl.
  apply elem_of_list_to_map_2 in Hl.
  apply list_elem_of_fmap in Hl as (p & [= -> ->] & Hin).
  by exists p.
Qed.

(** X11: in a [Product] table with distinct primary keys, the object link of
    a Review that refers to product [p] is the anchor of the change URL for
    [p]'s id, labelled with [p]'s name, which is what [__unicode__]
    returns. *)
Theorem product_link_shows_name
    (reverse : string → list Z → option string) (rows : list ProductRow)
    (p : ProductRow) (obj : Review) (url : string) :
  NoDup (product_id <$> rows) →
  p ∈ rows →
  app_label (content_type obj) = "tests" →
  model (content_type obj) = "product" →
  object_id obj = product_id p →
  reverse "admin:tests_product_change" [product_id p] = Some url →
  reviewed_object_linked reverse (product_table rows) obj
  = Ok ("<a href='" +:+ url +:+ "'>" +:+ product_name p +:+ "</a>").
Proof.
  intros Hnd Hin Happ Hmodel Hid Hurl.
  unfold reviewed_object_linked, reviewed_object, reverse_url, change_viewname.
  rewrite Happ, Hmodel, Hid.
  pose proof (product_table_lookup rows p Hnd Hin) as Hl.
  cbv [Product meta_app_label meta_model_name] in Hl. rewrite Hl. simpl.
  change ("admin:" +:+ "tests" +:+ "_" +:+ "product" +:+ "_change")
    with "admin:tests_product_change".
  by rewrite Hurl.
Qed.

Lemma product_link_shows_name_witness :
  reviewed_object_linked product_routes (product_table [teapot; kettle]) review1
  = Ok ("<a href='" +:+ "/admin/tests/product/1/" +:+ "'>" +:+ product_name teapot
        +:+ "</a>").
Proof.
  apply (product_link_shows_name product_routes [teapot; kettle] teapot review1
           "/admin/tests/product/1/").
  - apply (bool_decide_unpack _). vm_compute. exact I.
  - apply (bool_decide_unpack _). vm_compute. exact I.
  - reflexivity.
  - reflexivity.
  - reflexivity.
  - vm_compute. reflexivity.
Defined.

(** X12: the two directions of the polymorphic link agree on the test
    suite's model: in a [Product] table with distinct primary keys, a Review
    belongs to [p.reviews] exactly when it is one of the Reviews and its
    reference resolves to [p]. *)
Theorem Product_reviews_resolve
    (rows : list ProductRow) (p : ProductRow) (all_reviews : list Review)
    (r : Review) :
  NoDup (product_id <$> rows) →
  p ∈ rows →
  r ∈ Product_reviews all_reviews p
  ↔ r ∈ all_reviews ∧ reviewed_object (product_table rows) r = Some (product_record p).
Proof.
  intros Hnd Hin. unfold Product_reviews, reviewed_object.
  rewrite list_elem_of_filter. split.
  - intros [(Happ & Hmodel & Hid) Hr]. split; [done|].
    rewrite Happ, Hmodel, Hid. by apply product_table_lookup.
  - intros [Hr Hl]. split; [|done].
    apply product_table_lookup_inv in Hl as (p' & _ & [= Happ Hmodel Hid] & Hrec).
    assert (product_id p = product_id p') as ->
      by exact (f_equal rec_id Hrec).
    done.
Qed.

Lemma Product_reviews_resolve_witness :
  review1 ∈ Product_reviews [review2; review1] teapot
  ↔ review1 ∈ [review2; review1]
    ∧ reviewed_object (product_table [teapot; kettle]) review1
      = Some (product_record teapot).
Proof.
  apply (Product_reviews_resolve [teapot; kettle] teapot [review2; review1] review1).
  - apply (bool_decide_unpack _). vm_compute. exact I.
  - apply (bool_decide_unpack _). vm_compute. exact I.
Defined.

(** ** The list column and the filter agree *)


